(** * multithreading.py: the IMDb scraper, embedded and verified

    The script fetches a chart page, collects the links of its list items,
    and runs [extract_movie_details] over them on a thread pool; each task
    fetches one page, reads four fields out of the parsed tree and appends
    a CSV row when all four are there.

    Layout: Python string helpers, the part of the BeautifulSoup tree API
    the script calls, the world the script acts on, the script's three
    functions, sample pages, and then the properties. *)

From Stdlib Require Import String Ascii List Bool Arith Lia Permutation.
Import ListNotations.
Set Warnings "-register-all".
Open Scope string_scope.

(** ** Python strings *)

Module pystr.

(** [str.isspace] on one character, for code points below 256. *)
Definition isspace (c : ascii) : bool :=
  let n := nat_of_ascii c in
  (((9 <=? n) && (n <=? 13)) || ((28 <=? n) && (n <=? 32))
   || (n =? 133) || (n =? 160))%nat.

Fixpoint lstrip (s : string) : string :=
  match s with
  | String c s' => if isspace c then lstrip s' else s
  | EmptyString => EmptyString
  end.

Fixpoint rstrip (s : string) : string :=
  match s with
  | String c s' =>
      let r := rstrip s' in
      if isspace c && (r =? "") then "" else String c r
  | EmptyString => EmptyString
  end.

(** [s.strip()] *)
Definition strip (s : string) : string := rstrip (lstrip s).

(** [needle in hay] *)
Fixpoint contains (needle hay : string) : bool :=
  String.prefix needle hay
  || match hay with
     | String _ hay' => contains needle hay'
     | EmptyString => false
     end.

(** The maximal runs of non-space characters of [s] (the regular
    expression [\S+] that bs4 applies to a [class] value); [cur] is the
    run being read. *)
Fixpoint nonwhitespace_from (cur s : string) : list string :=
  match s with
  | EmptyString => if cur =? "" then [] else [cur]
  | String c s' =>
      if isspace c
      then (if cur =? "" then nonwhitespace_from "" s'
            else cur :: nonwhitespace_from "" s')
      else nonwhitespace_from (cur ++ String c "") s'
  end.

Definition nonwhitespace (s : string) : list string :=
  nonwhitespace_from "" s.

(** Truth value of a [str], and of an [Optional[str]]. *)
Definition truthy (s : string) : bool := negb (s =? "").

Definition truthy_opt (o : option string) : bool :=
  match o with
  | Some s => truthy s
  | None => false
  end.

End pystr.

(** ** The BeautifulSoup tree and the lookups the script uses *)

Module bs4.

(** A parsed page.  [Tag] carries its name, its attribute dictionary (the
    first binding of a key is the one looked up) and its contents;
    [NavigableString] is a text node; [Comment] stands for the string
    nodes that [get_text] leaves out (comments, doctype, script and
    style bodies).  The [BeautifulSoup] object is itself a [Tag]. *)
Inductive node : Type :=
| Tag (name : string) (attrs : list (string * string)) (contents : list node)
| NavigableString (text : string)
| Comment (text : string).

(** What an attribute of a search is compared with: a string, or a
    function of the attribute's value ([None] when the tag lacks it). *)
Inductive matcher : Type :=
| Exactly (s : string)
| Satisfies (f : option string -> bool).

Definition name_of (n : node) : option string :=
  match n with
  | Tag nm _ _ => Some nm
  | _ => None
  end.

Definition contents_of (n : node) : list node :=
  match n with
  | Tag _ _ cs => cs
  | _ => []
  end.

(** [tag.attrs.get(key)] *)
Fixpoint lookup (key : string) (attrs : list (string * string)) : option string :=
  match attrs with
  | [] => None
  | (k, v) :: rest => if k =? key then Some v else lookup key rest
  end.

Definition get (n : node) (key : string) : option string :=
  match n with
  | Tag _ attrs _ => lookup key attrs
  | _ => None
  end.

(** [tag.descendants]: every node below [n], in document order. *)
Fixpoint descendants (n : node) : list node :=
  match n with
  | Tag _ _ cs => flat_map (fun c => c :: descendants c) cs
  | _ => []
  end.

(** [tag.get_text()]: the text nodes below [n], joined. *)
Definition string_of (n : node) : list string :=
  match n with
  | NavigableString s => [s]
  | _ => []
  end.

Definition get_text (n : node) : string :=
  String.concat "" (flat_map string_of (descendants n)).

(** [SoupStrainer._matches] on one value. *)
Definition matches_value (markup : option string) (m : matcher) : bool :=
  match m with
  | Satisfies f => f markup
  | Exactly s =>
      match markup with
      | None => s =? ""
      | Some v => v =? s
      end
  end.

(** Of the attributes the script searches on, [class] is the one that
    html.parser stores as a list of its whitespace-separated values. *)
Definition multi_valued (key : string) : bool := key =? "class".

(** [SoupStrainer._matches] on the attribute [key] of a tag: a
    multi-valued attribute matches when one of its values does, or when
    the values joined by single spaces do. *)
Definition matches_attr (key : string) (raw : option string) (m : matcher) : bool :=
  match raw with
  | Some v =>
      if multi_valued key
      then
        let values := pystr.nonwhitespace v in
        existsb (fun item => matches_value (Some item) m) values
        || matches_value (Some (String.concat " " values)) m
      else matches_value (Some v) m
  | None => matches_value None m
  end.

(** [SoupStrainer.search_tag]: the name and every searched attribute match. *)
Definition search_tag (name : string) (attrs : list (string * matcher))
    (n : node) : bool :=
  match n with
  | Tag nm tag_attrs _ =>
      (nm =? name)
      && forallb (fun '(k, m) => matches_attr k (lookup k tag_attrs) m) attrs
  | _ => false
  end.

(** [tag.find_all(name, attrs)] *)
Definition find_all (name : string) (attrs : list (string * matcher))
    (root : node) : list node :=
  filter (search_tag name attrs) (descendants root).

(** [tag.find_all(name, recursive=False)] *)
Definition find_all_children (name : string) (root : node) : list node :=
  filter (search_tag name []) (contents_of root).

(** [tag.find(name, attrs)]: the first match in document order, or [None]. *)
Definition find (name : string) (attrs : list (string * matcher))
    (root : node) : option node :=
  List.find (search_tag name attrs) (descendants root).

End bs4.

Import bs4.

(** ** Exceptions, the world, and the monad of the script *)

Inductive exn : Type :=
| AttributeError      (* a method called on [None] *)
| TypeError           (* [None] subscripted *)
| KeyError            (* [tag[key]] on a tag without that attribute *)
| ValueError          (* [ThreadPoolExecutor(max_workers=0)] *)
| RequestException.   (* a transport failure inside [requests.get] *)

Inductive result (A : Type) : Type :=
| Return (a : A)
| Raise (e : exn).
Arguments Return {A} a.
Arguments Raise {A} e.

(** A Python value that is a [str] or [None]. *)
Definition value : Type := option string.

(** What the script can change: the requests it has sent, the rows it has
    appended to movies.csv, and the lines it has printed. *)
Record world : Type := World {
  requests_log : list string;
  movies_csv : list (list value);
  stdout : list (list value)
}.

Definition M (A : Type) : Type := world -> result A * world.

Definition ret {A} (a : A) : M A := fun w => (Return a, w).

Definition raise {A} (e : exn) : M A := fun w => (Raise e, w).

Definition bind {A B} (m : M A) (k : A -> M B) : M B :=
  fun w =>
    match m w with
    | (Return a, w') => k a w'
    | (Raise e, w') => (Raise e, w')
    end.

Notation "x <- m ;; k" := (bind m (fun x => k))
  (at level 61, m at next level, right associativity).
Notation "m ;; k" := (bind m (fun _ => k))
  (at level 61, right associativity).

(** A Python expression that can raise but touches nothing. *)
Definition lift {A} (r : result A) : M A := fun w => (r, w).

(** [o.method(...)] where [o] may be [None]. *)
Definition attribute_of {A} (o : option A) : result A :=
  match o with
  | Some a => Return a
  | None => Raise AttributeError
  end.

(** [o[key]] on a tag [o] that may be [None]. *)
Definition subscript (o : option node) (key : string) : result string :=
  match o with
  | None => Raise TypeError
  | Some tag =>
      match get tag key with
      | Some v => Return v
      | None => Raise KeyError
      end
  end.

(** A list comprehension whose element expression can raise: elements
    are evaluated left to right and the first exception ends it. *)
Fixpoint comprehension {A B} (f : A -> result B) (l : list A) : result (list B) :=
  match l with
  | [] => Return []
  | x :: rest =>
      match f x with
      | Raise e => Raise e
      | Return y =>
          match comprehension f rest with
          | Raise e => Raise e
          | Return ys => Return (y :: ys)
          end
      end
  end.

Definition print (args : list value) : M unit :=
  fun w => (Return tt, World (requests_log w) (movies_csv w) (stdout w ++ [args])).

(** [csv.writer(file).writerow(row)] on movies.csv opened in append mode. *)
Definition writerow (row : list value) : M unit :=
  fun w => (Return tt, World (requests_log w) (movies_csv w ++ [row]) (stdout w)).

(** ** The script *)

Definition headers : list (string * string) :=
  [("User-Agent",
    "Mozilla/5.0 (Windows NT 10.0; Win64; x64) AppleWebKit/537.36 (KHTML, like Gecko) Chrome/42.0.2311.135 Safari/537.36 Edge/12.246")].

Definition MAX_THREADS : nat := 100.

(** The four local variables of [extract_movie_details] as they stand
    when the function ends; one that was never bound reads [None].  The
    Python function returns nothing; the embedding hands these back so
    that the properties can speak of the record a task has read. *)
Record details : Type := Details {
  title : value;
  date : value;
  rating : value;
  plot_text : value
}.

(** The [href] test of the release date search:
    [lambda href: href and 'releaseinfo' in href]. *)
Definition releaseinfo (href : option string) : bool :=
  match href with
  | Some h => pystr.truthy h && pystr.contains "releaseinfo" h
  | None => false
  end.

(** Lines 72-77: movies.csv is opened for appending, and the row is
    printed and written when [all([...])] holds. *)
Definition save_row (title date rating plot_text : value) : M unit :=
  if forallb pystr.truthy_opt [title; date; rating; plot_text]
  then print [title; date; rating; plot_text] ;;
       writerow [title; date; rating; plot_text]
  else ret tt.

Section Scraper.

(** The two library calls whose results the script cannot compute:
    [requests.get(url, headers=...)], which answers with the page's
    content or fails in transport ([None] here), and the html.parser
    tree of a content. *)
Variable network : string -> list (string * string) -> option string.
Variable BeautifulSoup : string -> node.

(** [requests.get(url, headers=headers).content] *)
Definition requests_get (url : string) : M string :=
  fun w =>
    let w' := World (requests_log w ++ [url]) (movies_csv w) (stdout w) in
    match network url headers with
    | Some content => (Return content, w')
    | None => (Raise RequestException, w')
    end.

(** Lines 40-77, from the parsed page on ([movie_soup is not None]
    always holds). *)
Definition movie_details_of (movie_soup : node) : M details :=
  let title := None in
  let date := None in
  match find "section" [("class", Exactly "ipc-page-section")] movie_soup with
  | Some page_section =>
      let divs := find_all_children "div" page_section in
      match divs with
      | _ :: target_div :: _ =>            (* len(divs) > 1; divs[1] *)
          title <- match find "h1" [] target_div with
                   | Some title_tag =>     (* a Tag is always true *)
                       span <- lift (attribute_of (find "span" [] title_tag)) ;;
                       ret (Some (get_text span))
                   | None => ret title
                   end ;;
          let date :=
            match find "a" [("href", Satisfies releaseinfo)] target_div with
            | Some date_tag => Some (pystr.strip (get_text date_tag))
            | None => date
            end in
          let rating :=
            match find "div" [("data-testid",
                               Exactly "hero-rating-bar__aggregate-rating__score")]
                       movie_soup with
            | Some rating_tag => Some (get_text rating_tag)
            | None => None
            end in
          let plot_text :=
            match find "span" [("data-testid", Exactly "plot-xs_to_m")]
                       movie_soup with
            | Some plot_tag => Some (pystr.strip (get_text plot_tag))
            | None => None
            end in
          save_row title date rating plot_text ;;
          ret (Details title date rating plot_text)
      | _ => ret (Details title date None None)
      end
  | None => ret (Details title date None None)
  end.

(** [extract_movie_details(movie_link)].  The random sleep of line 36
    only delays the request and is left out. *)
Definition extract_movie_details (movie_link : string) : M details :=
  response <- requests_get movie_link ;;
  movie_details_of (BeautifulSoup response).

(** Lines 84-88 of [extract_movies]: the value of [movie_links]. *)
Definition movie_links (soup : node) : result (list string) :=
  match attribute_of
          (find "div" [("data-testid", Exactly "chart-layout-main-column")] soup)
  with
  | Raise e => Raise e
  | Return column =>
      let movies_table := find "ul" [] column in
      match attribute_of movies_table with
      | Raise e => Raise e
      | Return table =>
          let movies_table_rows := find_all "li" [] table in
          comprehension
            (fun movie =>
               match subscript (find "a" [] movie) "href" with
               | Return href => Return ("https://imdb.com" ++ href)
               | Raise e => Raise e
               end)
            movies_table_rows
      end
  end.

(** *** The thread pool

    [concurrent.futures.ThreadPoolExecutor] as the script uses it:
    [executor.map] submits one work item per link, in order; a submit
    may start a worker thread while fewer than [max_workers] exist; a
    worker takes the oldest queued item, runs it to its end and stores
    what it returned or raised in the item's future; leaving the [with]
    block waits until nothing is queued or running.  The order in
    which threads move is not fixed by the program: it is the
    [schedule], a list of events. *)

Record executor : Type := Executor {
  max_workers : nat;
  pending : list string;      (* links [map] has still to submit *)
  work_queue : list string;   (* submitted, not yet taken *)
  threads : nat;              (* worker threads started *)
  running : list string;      (* taken by a worker, not yet finished *)
  futures : list (string * result details)
}.

Inductive event : Type :=
| Submit (spawn : bool)   (* [map] submits the next link *)
| Take                    (* an idle worker takes the oldest queued link *)
| Finish (i : nat).       (* the i-th running task runs to its end *)

(** [ThreadPoolExecutor(max_workers=n)] *)
Definition ThreadPoolExecutor (n : nat) : result executor :=
  if (n =? 0)%nat then Raise ValueError
  else Return (Executor n [] [] 0 [] []).

(** [executor.map(fn, links)]; the iterator of results it returns is
    dropped by the script, so no future is ever read. *)
Definition executor_map (links : list string) (ex : executor) : executor :=
  Executor (max_workers ex) (pending ex ++ links) (work_queue ex)
           (threads ex) (running ex) (futures ex).

Definition remove_nth {A} (i : nat) (l : list A) : list A :=
  firstn i l ++ skipn (S i) l.

Definition pool_step (ev : event) (s : executor * world)
  : option (executor * world) :=
  let (ex, w) := s in
  match ev with
  | Submit spawn =>
      match pending ex with
      | [] => None
      | link :: rest =>
          if spawn
          then
            (* no idle worker was seen and the pool is not full *)
            if (threads ex <? max_workers ex)%nat
            then Some (Executor (max_workers ex) rest (work_queue ex ++ [link])
                                (S (threads ex)) (running ex) (futures ex), w)
            else None
          else
            (* an idle worker exists, or the pool is full *)
            if ((length (running ex) <? threads ex)
                || (max_workers ex <=? threads ex))%nat
            then Some (Executor (max_workers ex) rest (work_queue ex ++ [link])
                                (threads ex) (running ex) (futures ex), w)
            else None
      end
  | Take =>
      match work_queue ex with
      | [] => None
      | link :: queue =>
          if (length (running ex) <? threads ex)%nat
          then Some (Executor (max_workers ex) (pending ex) queue
                              (threads ex) (running ex ++ [link]) (futures ex), w)
          else None
      end
  | Finish i =>
      match nth_error (running ex) i with
      | None => None
      | Some link =>
          let (outcome, w') := extract_movie_details link w in
          Some (Executor (max_workers ex) (pending ex) (work_queue ex)
                         (threads ex) (remove_nth i (running ex))
                         (futures ex ++ [(link, outcome)]), w')
      end
  end.

Fixpoint pool_run (schedule : list event) (s : executor * world)
  : option (executor * world) :=
  match schedule with
  | [] => Some s
  | ev :: rest =>
      match pool_step ev s with
      | Some s' => pool_run rest s'
      | None => None
      end
  end.

(** Nothing left to submit, to take or to finish. *)
Definition all_done (ex : executor) : bool :=
  match pending ex, work_queue ex, running ex with
  | [], [], [] => true
  | _, _, _ => false
  end.

(** Lines 91-93: the pool is built for [min(MAX_THREADS, len(movie_links))]
    workers and the links are mapped over it. *)
Definition dispatch (movie_links : list string) : result executor :=
  let threads := Nat.min MAX_THREADS (length movie_links) in
  match ThreadPoolExecutor threads with
  | Raise e => Raise e
  | Return executor => Return (executor_map movie_links executor)
  end.

(** [extract_movies(soup)] under a schedule of the pool's threads.  The
    answer is [None] when [schedule] is not a run of the pool from its
    start to the point where every task has ended. *)
Definition extract_movies (schedule : list event) (soup : node) (w : world)
  : option (result unit * world) :=
  match movie_links soup with
  | Raise e => Some (Raise e, w)
  | Return links =>
      match dispatch links with
      | Raise e => Some (Raise e, w)
      | Return ex =>
          match pool_run schedule (ex, w) with
          | Some (ex', w') =>
              if all_done ex' then Some (Return tt, w') else None
          | None => None
          end
      end
  end.

Definition popular_movies_url : string :=
  "https://www.imdb.com/chart/moviemeter/?ref_=nv_mv_mpm".

(** [main()].  The elapsed time it prints is a clock reading and is
    left out of the printed line. *)
Definition main (schedule : list event) (w : world)
  : option (result unit * world) :=
  match requests_get popular_movies_url w with
  | (Raise e, w1) => Some (Raise e, w1)
  | (Return content, w1) =>
      match extract_movies schedule (BeautifulSoup content) w1 with
      | Some (Return _, w2) => Some (print [Some "Total time taken: "] w2)
      | Some (Raise e, w2) => Some (Raise e, w2)
      | None => None
      end
  end.

End Scraper.

(** The schedule that runs [n] tasks one after the other on one worker. *)
Definition one_by_one (n : nat) : list event :=
  match n with
  | 0 => []
  | S n' =>
      [Submit true; Take; Finish 0]
      ++ concat (repeat [Submit false; Take; Finish 0] n')
  end.

(** ** Predicates the properties are stated with *)

Open Scope list_scope.

(** A field that holds a non-empty string. *)
Definition filled (v : value) : Prop := exists s, v = Some s /\ s <> "".

(** Every field of the record is a non-empty string. *)
Definition complete (r : details) : Prop :=
  filled (title r) /\ filled (date r) /\ filled (rating r) /\ filled (plot_text r).

Definition row_of (r : details) : list value :=
  [title r; date r; rating r; plot_text r].

Definition all_null : details := Details None None None None.

(** The rows a task for [link] appends, seen from an empty world. *)
Definition rows_of (network : string -> list (string * string) -> option string)
    (BeautifulSoup : string -> node) (link : string) : list (list value) :=
  movies_csv (snd (extract_movie_details network BeautifulSoup link (World [] [] []))).

(** The target of the first link of a list item. *)
Definition first_link_target (movie : node) : option string :=
  match find "a" [] movie with
  | Some a => get a "href"
  | None => None
  end.

(** What [save_row] does to the world. *)
Definition saved (r : details) (w : world) : world :=
  if forallb pystr.truthy_opt (row_of r)
  then World (requests_log w) (movies_csv w ++ [row_of r]) (stdout w ++ [row_of r])
  else w.

(** The element expression of the comprehension of line 88. *)
Definition link_of (movie : node) : result string :=
  match subscript (find "a" [] movie) "href" with
  | Return href => Return ("https://imdb.com" ++ href)%string
  | Raise e => Raise e
  end.

(** The pool has started no more workers than it may, and runs no more
    tasks than it has workers. *)
Definition within_bound (ex : executor) : Prop :=
  threads ex <= max_workers ex /\ length (running ex) <= threads ex.

(** The links the pool holds, finished ones first. *)
Definition links_held (ex : executor) : list string :=
  map fst (futures ex) ++ running ex ++ work_queue ex ++ pending ex.

(** A row of movies.csv whose four fields are non-empty strings. *)
Definition full_row (row : list value) : Prop :=
  exists t d r p,
    row = [Some t; Some d; Some r; Some p]
    /\ t <> "" /\ d <> "" /\ r <> "" /\ p <> "".

(** The events a pool still has to go through: three for a link not yet
    submitted, two for a queued one, one for a running one. *)
Definition events_left (ex : executor) : nat :=
  3 * length (pending ex) + 2 * length (work_queue ex) + length (running ex).




(** ** Sample pages

    Each page is given as the text served and as the tree html.parser
    builds from it. *)

Module sample.

Definition document (contents : list node) : node := Tag "[document]" [] contents.

Definition rating_bar (score : string) : node :=
  Tag "div" [("data-testid", "hero-rating-bar__aggregate-rating__score")]
      [NavigableString score].

Definition plot (text : string) : node :=
  Tag "span" [("data-testid", "plot-xs_to_m")] [NavigableString text].

Definition hero (heading : list node) : node :=
  Tag "section" [("class", "ipc-page-section ipc-page-section--base")]
      [Tag "div" [] [];
       Tag "div" []
           [Tag "h1" [] heading;
            Tag "a" [("href", "/title/tt1160419/releaseinfo")]
                [NavigableString " 2021 "]]].

(** A page with everything in place. *)
Definition dune_html : string :=
  "<section class='ipc-page-section ipc-page-section--base'><div></div><div><h1><span>Dune</span></h1><a href='/title/tt1160419/releaseinfo'> 2021 </a></div></section><div data-testid='hero-rating-bar__aggregate-rating__score'>8.0</div><span data-testid='plot-xs_to_m'> Sand and spice. </span>".

Definition dune : node :=
  document [hero [Tag "span" [] [NavigableString "Dune"]];
            rating_bar "8.0"; plot " Sand and spice. "].

(** The same page without the rating element. *)
Definition unrated_html : string :=
  "<section class='ipc-page-section ipc-page-section--base'><div></div><div><h1><span>Dune</span></h1><a href='/title/tt1160419/releaseinfo'> 2021 </a></div></section><span data-testid='plot-xs_to_m'> Sand and spice. </span>".

Definition unrated : node :=
  document [hero [Tag "span" [] [NavigableString "Dune"]];
            plot " Sand and spice. "].

(** The heading holds its text directly, with no span around it. *)
Definition bare_heading_html : string :=
  "<section class='ipc-page-section ipc-page-section--base'><div></div><div><h1>Dune</h1><a href='/title/tt1160419/releaseinfo'> 2021 </a></div></section><div data-testid='hero-rating-bar__aggregate-rating__score'>8.0</div><span data-testid='plot-xs_to_m'> Sand and spice. </span>".

Definition bare_heading : node :=
  document [hero [NavigableString "Dune"];
            rating_bar "8.0"; plot " Sand and spice. "].

(** The heading's span is there and empty. *)
Definition untitled_html : string :=
  "<section class='ipc-page-section ipc-page-section--base'><div></div><div><h1><span></span></h1><a href='/title/tt1160419/releaseinfo'> 2021 </a></div></section><div data-testid='hero-rating-bar__aggregate-rating__score'>8.0</div><span data-testid='plot-xs_to_m'> Sand and spice. </span>".

Definition untitled : node :=
  document [hero [Tag "span" [] []];
            rating_bar "8.0"; plot " Sand and spice. "].

(** A page without the section. *)
Definition not_found_html : string := "<p>Not found</p>".

Definition not_found : node :=
  document [Tag "p" [] [NavigableString "Not found"]].

(** Chart pages. *)
Definition item (link : list node) : node := Tag "li" [] link.

Definition anchor (href title : string) : node :=
  Tag "a" [("href", href)] [NavigableString title].

Definition chart_of (items : list node) : node :=
  document [Tag "div" [("data-testid", "chart-layout-main-column")]
                [Tag "ul" [] items]].

Definition chart_html : string :=
  "<div data-testid='chart-layout-main-column'><ul><li><a href='/title/dune/'>Dune</a></li><li><a href='/title/heat/'>Heat</a></li><li><a href='/title/gone/'>Gone</a></li></ul></div>".

Definition chart : node :=
  chart_of [item [anchor "/title/dune/" "Dune"];
            item [anchor "/title/heat/" "Heat"];
            item [anchor "/title/gone/" "Gone"]].

(** A chart whose list is empty. *)
Definition empty_chart : node := chart_of [].

(** A chart whose second item has no link. *)
Definition chart_with_plain_item : node :=
  chart_of [item [anchor "/title/dune/" "Dune"];
            item [NavigableString "Heat"]].

(** A chart whose only item has a link without a target. *)
Definition chart_with_bare_link : node :=
  chart_of [item [Tag "a" [("name", "top")] [NavigableString "Dune"]]].

(** What the sample site serves: the chart, two detail pages, and one
    address whose server cannot be reached. *)
Definition network (url : string) (_ : list (string * string)) : option string :=
  if url =? popular_movies_url then Some chart_html
  else if url =? "https://imdb.com/title/dune/" then Some dune_html
  else if url =? "https://imdb.com/title/heat/" then Some unrated_html
  else if url =? "https://imdb.com/title/bare/" then Some bare_heading_html
  else if url =? "https://imdb.com/title/blank/" then Some untitled_html
  else if url =? "https://imdb.com/title/gone/" then None
  else Some not_found_html.

(** html.parser on the sample texts. *)
Definition BeautifulSoup (content : string) : node :=
  if content =? chart_html then chart
  else if content =? dune_html then dune
  else if content =? unrated_html then unrated
  else if content =? bare_heading_html then bare_heading
  else if content =? untitled_html then untitled
  else not_found.

Definition fresh : world := World [] [] [].

End sample.

(** A run over the sample chart. *)
Module sample_run.

Definition links : list string :=
  ["https://imdb.com/title/dune/"; "https://imdb.com/title/heat/";
   "https://imdb.com/title/gone/"].

Definition dune_row : list value :=
  [Some "Dune"; Some "2021"; Some "8.0"; Some "Sand and spice."].

(** The world after the three tasks have run one after the other. *)
Definition after : world := World links [dune_row] [dune_row].

(** The pool at the start, and with two tasks running. *)
Definition start : executor := Executor 3 links [] 0 [] [].

Definition two_running : executor :=
  Executor 3 ["https://imdb.com/title/gone/"] [] 2
           ["https://imdb.com/title/dune/"; "https://imdb.com/title/heat/"] [].

(** A schedule that runs the three tasks side by side. *)
Definition side_by_side : list event :=
  [Submit true; Submit true; Take; Submit true; Take; Take;
   Finish 2; Finish 0; Finish 0].


End sample_run.

(** ** Properties of the detail extraction *)

Lemma truthy_opt_filled (v : value) : pystr.truthy_opt v = true <-> filled v.
Proof.
  unfold filled, pystr.truthy_opt, pystr.truthy. destruct v as [s|].
  - rewrite negb_true_iff. split.
    + intros H. exists s. split; [reflexivity|].
      intros ->. discriminate.
    + intros (s' & [= <-] & Hne). now apply String.eqb_neq.
  - split; [discriminate|]. intros (s & [=] & _).
Qed.

Lemma all_truthy_complete (r : details) :
  forallb pystr.truthy_opt (row_of r) = true <-> complete r.
Proof.
  unfold complete, row_of. cbn [forallb].
  rewrite !andb_true_iff, <- !truthy_opt_filled. tauto.
Qed.

Lemma append_one_differs {A} (l : list A) (x : A) : l ++ [x] <> l.
Proof.
  intros H. apply (f_equal (@length A)) in H.
  rewrite length_app in H. cbn in H. lia.
Qed.

Lemma save_row_saved (t d r p : value) (w : world) :
  save_row t d r p w = (Return tt, saved (Details t d r p) w).
Proof.
  unfold save_row, saved, row_of. cbn [title date rating plot_text].
  destruct (forallb _ _); reflexivity.
Qed.

(** The outcomes of the extraction, the same in every world: it returns
    the record it found, after the gate has seen it, or it raises
    [AttributeError] at a heading that has no span, the world untouched. *)
Lemma movie_details_of_outcome (soup : node) :
  (exists r, forall w, movie_details_of soup w = (Return r, saved r w))
  \/ (forall w, movie_details_of soup w = (Raise AttributeError, w)).
Proof.
  unfold movie_details_of.
  destruct (find "section" _ soup) as [page_section|];
    [|left; exists all_null; reflexivity].
  destruct (find_all_children "div" page_section) as [|d0 [|target_div divs]];
    try (left; exists all_null; reflexivity).
  destruct (find "h1" [] target_div) as [title_tag|].
  - destruct (find "span" [] title_tag) as [span|]; [|right; reflexivity].
    left. eexists (Details _ _ _ _). intros w.
    unfold bind, lift, ret, attribute_of.
    rewrite save_row_saved.
    reflexivity.
  - left. eexists (Details _ _ _ _). intros w.
    unfold bind, lift, ret.
    rewrite save_row_saved.
    reflexivity.
Qed.

Lemma saved_csv (r : details) (w : world) :
  movies_csv (saved r w)
  = movies_csv w ++ (if forallb pystr.truthy_opt (row_of r) then [row_of r] else []).
Proof.
  unfold saved. destruct (forallb _ _); cbn; [reflexivity|].
  now rewrite app_nil_r.
Qed.

(** A task that returns has fetched its page and passed the gate. *)
Lemma extract_movie_details_returns net parser link w r w' :
  extract_movie_details net parser link w = (Return r, w') ->
  w' = saved r (World (requests_log w ++ [link]) (movies_csv w) (stdout w)).
Proof.
  unfold extract_movie_details, bind, requests_get.
  destruct (net link headers) as [content|]; [|discriminate].
  intros H.
  destruct (movie_details_of_outcome (parser content))
    as [(r0 & Hr)|Hr]; rewrite Hr in H.
  - injection H as <- <-. reflexivity.
  - discriminate.
Qed.

(** C1, as amended: once a task has its record, the gate appends the
    record's row to movies.csv exactly when all four fields are strings
    and none of them is empty, and leaves the file as it was exactly
    when that fails; the task returns normally in both cases. *)
Theorem sink_gate_writes_iff_complete net parser link w r w' :
  extract_movie_details net parser link w = (Return r, w') ->
  (movies_csv w' = movies_csv w ++ [row_of r] <-> complete r)
  /\ (movies_csv w' = movies_csv w <-> ~ complete r).
Proof.
  intros H. apply extract_movie_details_returns in H. subst w'.
  rewrite saved_csv. cbn [movies_csv].
  rewrite <- all_truthy_complete.
  destruct (forallb pystr.truthy_opt (row_of r)).
  - split; split; intros; try reflexivity; try congruence.
    exfalso. eapply append_one_differs; eassumption.
  - rewrite app_nil_r.
    split; split; intros; try reflexivity; try congruence.
    exfalso. eapply append_one_differs. symmetry. eassumption.
Qed.

Lemma sink_gate_writes_iff_complete_witness :
  let r := Details (Some "Dune") (Some "2021") (Some "8.0") (Some "Sand and spice.") in
  let w' := World ["https://imdb.com/title/dune/"] [row_of r] [row_of r] in
  extract_movie_details sample.network sample.BeautifulSoup
    "https://imdb.com/title/dune/" sample.fresh = (Return r, w')
  /\ (movies_csv w' = movies_csv sample.fresh ++ [row_of r] <-> complete r)
  /\ (movies_csv w' = movies_csv sample.fresh <-> ~ complete r).
Proof.
  intros r w'.
  assert (H : extract_movie_details sample.network sample.BeautifulSoup
                "https://imdb.com/title/dune/" sample.fresh = (Return r, w'))
    by (vm_compute; reflexivity).
  split; [exact H|].
  exact (sink_gate_writes_iff_complete sample.network sample.BeautifulSoup
           "https://imdb.com/title/dune/" sample.fresh r w' H).
Defined.

(** C1 as stated fails: the page whose heading span is empty yields a
    record with no null field, and no row is written for it. *)
Lemma empty_title_is_not_written :
  exists r w',
    extract_movie_details sample.network sample.BeautifulSoup
      "https://imdb.com/title/blank/" sample.fresh = (Return r, w')
    /\ title r <> None /\ date r <> None /\ rating r <> None
    /\ plot_text r <> None
    /\ movies_csv w' = movies_csv sample.fresh.
Proof.
  eexists. eexists. split; [vm_compute; reflexivity|].
  cbn. repeat split; discriminate.
Qed.

(** C2: on the page whose heading has no span, the extraction raises
    [AttributeError] instead of returning a record with a null title. *)
Theorem heading_without_span_raises :
  movie_details_of sample.bare_heading sample.fresh
  = (Raise AttributeError, sample.fresh)
  /\ extract_movie_details sample.network sample.BeautifulSoup
       "https://imdb.com/title/bare/" sample.fresh
     = (Raise AttributeError, World ["https://imdb.com/title/bare/"] [] []).
Proof. split; vm_compute; reflexivity. Qed.

(** The one way the extraction raises: the second div of the section has
    a heading, and the heading has no span below it. *)
Lemma movie_details_of_raises_only_at_span (soup : node) (w w' : world) (e : exn) :
  movie_details_of soup w = (Raise e, w') ->
  e = AttributeError /\ w' = w
  /\ exists page_section d0 target_div divs title_tag,
       find "section" [("class", Exactly "ipc-page-section")] soup = Some page_section
       /\ find_all_children "div" page_section = d0 :: target_div :: divs
       /\ find "h1" [] target_div = Some title_tag
       /\ find "span" [] title_tag = None.
Proof.
  intros H.
  destruct (movie_details_of_outcome soup) as [(r & Hr)|Hr];
    [rewrite Hr in H; discriminate|].
  rewrite Hr in H. injection H as <- <-.
  split; [reflexivity|]. split; [reflexivity|].
  specialize (Hr w). revert Hr. unfold movie_details_of.
  destruct (find "section" _ soup) as [page_section|] eqn:Hsec; [|discriminate].
  destruct (find_all_children "div" page_section) as [|d0 [|target_div divs]]
    eqn:Hdivs; try discriminate.
  destruct (find "h1" [] target_div) as [title_tag|] eqn:Hh1.
  - destruct (find "span" [] title_tag) as [span|] eqn:Hspan.
    + unfold bind, lift, ret, attribute_of, save_row.
      destruct (forallb _ _); discriminate.
    + intros _. exists page_section, d0, target_div, divs, title_tag.
      repeat split; assumption || reflexivity.
  - unfold bind, lift, ret, save_row.
    destruct (forallb _ _); discriminate.
Qed.

(** C7: when the page has no section of class ipc-page-section, or the
    section has fewer than two div children, the extraction returns the
    record whose four fields are null, without an exception, and leaves
    the world as it was: nothing is printed and no row is written. *)
Theorem no_section_or_short_section_is_all_null (soup : node) (w : world) :
  find "section" [("class", Exactly "ipc-page-section")] soup = None
  \/ (exists page_section,
        find "section" [("class", Exactly "ipc-page-section")] soup
        = Some page_section
        /\ length (find_all_children "div" page_section) < 2) ->
  movie_details_of soup w = (Return all_null, w).
Proof.
  unfold movie_details_of.
  intros [H|(page_section & H & Hlen)]; rewrite H; [reflexivity|].
  destruct (find_all_children "div" page_section) as [|d0 [|target_div divs]];
    try reflexivity.
  cbn in Hlen. lia.
Qed.

Lemma no_section_or_short_section_is_all_null_witness :
  (find "section" [("class", Exactly "ipc-page-section")] sample.not_found = None
   \/ (exists page_section,
         find "section" [("class", Exactly "ipc-page-section")] sample.not_found
         = Some page_section
         /\ length (find_all_children "div" page_section) < 2))
  /\ movie_details_of sample.not_found sample.fresh = (Return all_null, sample.fresh).
Proof.
  assert (H : find "section" [("class", Exactly "ipc-page-section")] sample.not_found
              = None) by (vm_compute; reflexivity).
  split; [left; exact H|].
  exact (no_section_or_short_section_is_all_null sample.not_found sample.fresh
           (or_introl H)).
Defined.

(** A section has no more div children than children. *)
Lemma div_children_bounded (page_section : node) :
  length (find_all_children "div" page_section) <= length (contents_of page_section).
Proof. unfold find_all_children. apply filter_length_le. Qed.

(** C8: the record (or the exception) the extraction yields depends on
    the page alone: whatever the world it runs in, and so also when it
    runs a second time in the world the first run left, the outcome is
    the same. *)
Theorem extraction_depends_on_markup_only (soup : node) (w1 w2 : world) :
  fst (movie_details_of soup w1) = fst (movie_details_of soup w2)
  /\ fst (movie_details_of soup (snd (movie_details_of soup w1)))
     = fst (movie_details_of soup w1).
Proof.
  assert (G : forall wa wb,
             fst (movie_details_of soup wa) = fst (movie_details_of soup wb)).
  { intros wa wb.
    destruct (movie_details_of_outcome soup) as [(r & Hr)|Hr];
      rewrite (Hr wa), (Hr wb); reflexivity. }
  split; apply G.
Qed.

(** ** Properties of the link collection *)

Lemma comprehension_returns {A B} (f : A -> result B) (l : list A) (ys : list B) :
  comprehension f l = Return ys <-> Forall2 (fun x y => f x = Return y) l ys.
Proof.
  revert ys. induction l as [|x l IH]; intros ys; cbn.
  - split.
    + intros [= <-]. constructor.
    + intros H. inversion H. reflexivity.
  - split.
    + destruct (f x) as [y|e] eqn:Hx; [|discriminate].
      destruct (comprehension f l) as [ys'|e]; [|discriminate].
      intros [= <-]. constructor; [assumption|]. now apply IH.
    + intros H. inversion H as [|x' y l' ys' Hx Hrest]; subst.
      rewrite Hx. apply IH in Hrest. rewrite Hrest. reflexivity.
Qed.

(** A comprehension with a raising element raises, and what it raises is
    what one of its elements raises. *)
Lemma comprehension_raises {A B} (f : A -> result B) (l : list A) (x : A) (e : exn) :
  In x l -> f x = Raise e ->
  exists x' e', In x' l /\ f x' = Raise e' /\ comprehension f l = Raise e'.
Proof.
  induction l as [|a l IH]; intros Hin Hx; [contradiction|].
  cbn. destruct (f a) as [y|ea] eqn:Ha.
  - destruct Hin as [->|Hin]; [congruence|].
    destruct (IH Hin Hx) as (x' & e' & Hin' & Hx' & Hc).
    exists x', e'. rewrite Hc. repeat split; [now right|assumption].
  - exists a, ea. repeat split; [now left|assumption].
Qed.

Lemma link_of_target (movie : node) (t : string) :
  link_of movie = Return ("https://imdb.com" ++ t)%string
  <-> first_link_target movie = Some t.
Proof.
  unfold link_of, first_link_target, subscript.
  destruct (find "a" [] movie) as [a|]; [|split; discriminate].
  destruct (get a "href") as [h|]; [|split; discriminate].
  split; intros [= H]; subst; reflexivity.
Qed.

Lemma link_of_raises (movie : node) (e : exn) :
  link_of movie = Raise e -> e = TypeError \/ e = KeyError.
Proof.
  unfold link_of, subscript.
  destruct (find "a" [] movie) as [a|]; [|intros [= <-]; now left].
  destruct (get a "href"); [discriminate|intros [= <-]; now right].
Qed.

Lemma movie_links_found (soup column table : node) :
  find "div" [("data-testid", Exactly "chart-layout-main-column")] soup = Some column ->
  find "ul" [] column = Some table ->
  movie_links soup = comprehension link_of (find_all "li" [] table).
Proof.
  intros Hc Ht. unfold movie_links. rewrite Hc. cbn. rewrite Ht. reflexivity.
Qed.

(** An exception of [extract_movies] goes through [main] unchanged. *)
Lemma main_propagates net parser schedule w content e w' :
  net popular_movies_url headers = Some content ->
  extract_movies net parser schedule (parser content)
    (World (requests_log w ++ [popular_movies_url]) (movies_csv w) (stdout w))
  = Some (Raise e, w') ->
  main net parser schedule w = Some (Raise e, w').
Proof.
  intros Hnet H. unfold main, requests_get. rewrite Hnet, H. reflexivity.
Qed.

(** C5: when the chart page has no div marked chart-layout-main-column,
    or that div holds no ul, collecting the links raises
    [AttributeError]; [extract_movies] ends with that exception under
    every schedule, in the world it started from (no pool was built, no
    request sent, no row written), and [main] passes it on. *)
Theorem missing_listing_is_fatal net parser schedule (soup : node) (w : world) :
  find "div" [("data-testid", Exactly "chart-layout-main-column")] soup = None
  \/ (exists column,
        find "div" [("data-testid", Exactly "chart-layout-main-column")] soup
        = Some column
        /\ find "ul" [] column = None) ->
  movie_links soup = Raise AttributeError
  /\ extract_movies net parser schedule soup w = Some (Raise AttributeError, w)
  /\ forall w0 content,
       net popular_movies_url headers = Some content ->
       parser content = soup ->
       main net parser schedule w0
       = Some (Raise AttributeError,
               World (requests_log w0 ++ [popular_movies_url])
                     (movies_csv w0) (stdout w0)).
Proof.
  intros H.
  assert (L : movie_links soup = Raise AttributeError).
  { unfold movie_links.
    destruct H as [H|(column & H & Hul)]; rewrite H; cbn; [reflexivity|].
    rewrite Hul. reflexivity. }
  assert (E : forall w1, extract_movies net parser schedule soup w1
                         = Some (Raise AttributeError, w1)).
  { intros w1. unfold extract_movies. rewrite L. reflexivity. }
  split; [exact L|]. split; [apply E|].
  intros w0 content Hnet <-. apply main_propagates with (content := content).
  - exact Hnet.
  - apply E.
Qed.

Lemma missing_listing_is_fatal_witness :
  (find "div" [("data-testid", Exactly "chart-layout-main-column")] sample.not_found
   = None
   \/ (exists column,
         find "div" [("data-testid", Exactly "chart-layout-main-column")]
              sample.not_found = Some column
         /\ find "ul" [] column = None))
  /\ movie_links sample.not_found = Raise AttributeError
  /\ extract_movies sample.network sample.BeautifulSoup [] sample.not_found sample.fresh
     = Some (Raise AttributeError, sample.fresh)
  /\ forall w0 content,
       sample.network popular_movies_url headers = Some content ->
       sample.BeautifulSoup content = sample.not_found ->
       main sample.network sample.BeautifulSoup [] w0
       = Some (Raise AttributeError,
               World (requests_log w0 ++ [popular_movies_url])
                     (movies_csv w0) (stdout w0)).
Proof.
  assert (H : find "div" [("data-testid", Exactly "chart-layout-main-column")]
                   sample.not_found = None) by (vm_compute; reflexivity).
  split; [left; exact H|].
  exact (missing_listing_is_fatal sample.network sample.BeautifulSoup []
           sample.not_found sample.fresh (or_introl H)).
Defined.

(** C6, as amended: when the chart page has the marked div and a ul in
    it, and every li below the ul has a link whose first one carries an
    href, the collected links are the hrefs of those first links, each
    after the origin https://imdb.com, one per li and in the order the
    li elements come in the document. *)
Theorem links_follow_the_items (soup column table : node) :
  find "div" [("data-testid", Exactly "chart-layout-main-column")] soup = Some column ->
  find "ul" [] column = Some table ->
  (forall movie, In movie (find_all "li" [] table) ->
     exists a href, find "a" [] movie = Some a /\ get a "href" = Some href) ->
  exists targets,
    Forall2 (fun movie t => first_link_target movie = Some t)
            (filter (search_tag "li" []) (descendants table)) targets
    /\ movie_links soup = Return (map (String.append "https://imdb.com") targets).
Proof.
  intros Hc Ht Hitems.
  rewrite (movie_links_found soup column table Hc Ht).
  unfold find_all in *.
  induction (filter (search_tag "li" []) (descendants table)) as [|movie rows IH].
  - exists []. split; [constructor|reflexivity].
  - destruct IH as (targets & Hall & Hrest).
    { intros m Hm. apply Hitems. now right. }
    destruct (Hitems movie (or_introl eq_refl)) as (a & href & Ha & Hhref).
    exists (href :: targets). split.
    + constructor; [|assumption].
      unfold first_link_target. rewrite Ha. assumption.
    + cbn. rewrite Hrest.
      unfold link_of, subscript. rewrite Ha, Hhref. reflexivity.
Qed.

Lemma links_follow_the_items_witness :
  exists targets,
    Forall2 (fun movie t => first_link_target movie = Some t)
            (filter (search_tag "li" []) (descendants (Tag "ul" []
               [sample.item [sample.anchor "/title/dune/" "Dune"];
                sample.item [sample.anchor "/title/heat/" "Heat"];
                sample.item [sample.anchor "/title/gone/" "Gone"]])))
            targets
    /\ movie_links sample.chart
       = Return (map (String.append "https://imdb.com") targets).
Proof.
  refine (links_follow_the_items sample.chart
            (Tag "div" [("data-testid", "chart-layout-main-column")]
               [Tag "ul" []
                  [sample.item [sample.anchor "/title/dune/" "Dune"];
                   sample.item [sample.anchor "/title/heat/" "Heat"];
                   sample.item [sample.anchor "/title/gone/" "Gone"]]])
            _ _ _ _).
  - vm_compute. reflexivity.
  - vm_compute. reflexivity.
  - intros movie Hin. vm_compute in Hin.
    destruct Hin as [<-|[<-|[<-|[]]]];
      eexists; eexists; split; vm_compute; reflexivity.
Defined.

(** C6 as stated fails: in this chart the div and the ul are there and
    the one item contains a link, but the link has no href and the
    collection raises [KeyError]. *)
Lemma link_without_target_raises :
  exists column table,
    find "div" [("data-testid", Exactly "chart-layout-main-column")]
         sample.chart_with_bare_link = Some column
    /\ find "ul" [] column = Some table
    /\ (forall movie, In movie (find_all "li" [] table) ->
          find "a" [] movie <> None)
    /\ movie_links sample.chart_with_bare_link = Raise KeyError.
Proof.
  eexists. eexists. split; [vm_compute; reflexivity|].
  split; [vm_compute; reflexivity|]. split; [|vm_compute; reflexivity].
  intros movie Hin. vm_compute in Hin.
  destruct Hin as [<-|[]]. vm_compute. discriminate.
Qed.

(** C9: when the div and the ul are there and no li is below the ul, the
    links are the empty list, the pool is asked for min(100, 0) = 0
    workers, its constructor raises [ValueError], and [extract_movies]
    ends with that exception under every schedule, the world unchanged. *)
Theorem empty_listing_raises_ValueError net parser schedule
    (soup column table : node) (w : world) :
  find "div" [("data-testid", Exactly "chart-layout-main-column")] soup = Some column ->
  find "ul" [] column = Some table ->
  find_all "li" [] table = [] ->
  movie_links soup = Return []
  /\ Nat.min MAX_THREADS (length (@nil string)) = 0
  /\ ThreadPoolExecutor 0 = Raise ValueError
  /\ extract_movies net parser schedule soup w = Some (Raise ValueError, w).
Proof.
  intros Hc Ht Hli.
  assert (L : movie_links soup = Return []).
  { rewrite (movie_links_found soup column table Hc Ht), Hli. reflexivity. }
  split; [exact L|]. split; [reflexivity|]. split; [reflexivity|].
  unfold extract_movies. rewrite L. reflexivity.
Qed.

Lemma empty_listing_raises_ValueError_witness :
  movie_links sample.empty_chart = Return []
  /\ Nat.min MAX_THREADS (length (@nil string)) = 0
  /\ ThreadPoolExecutor 0 = Raise ValueError
  /\ extract_movies sample.network sample.BeautifulSoup (one_by_one 0)
       sample.empty_chart sample.fresh
     = Some (Raise ValueError, sample.fresh).
Proof.
  refine (empty_listing_raises_ValueError sample.network sample.BeautifulSoup
            (one_by_one 0) sample.empty_chart
            (Tag "div" [("data-testid", "chart-layout-main-column")] [Tag "ul" [] []])
            (Tag "ul" [] []) sample.fresh _ _ _);
    vm_compute; reflexivity.
Defined.

(** C10: when the div and the ul are there and some li below the ul has
    no link in it, collecting the links raises ([TypeError] at that
    item, or [KeyError] at an earlier item whose link has no href); no
    list of links is returned, and [extract_movies] ends with the
    exception under every schedule, the world unchanged. *)
Theorem item_without_link_aborts net parser schedule
    (soup column table movie : node) (w : world) :
  find "div" [("data-testid", Exactly "chart-layout-main-column")] soup = Some column ->
  find "ul" [] column = Some table ->
  In movie (find_all "li" [] table) ->
  find "a" [] movie = None ->
  exists e,
    (e = TypeError \/ e = KeyError)
    /\ movie_links soup = Raise e
    /\ extract_movies net parser schedule soup w = Some (Raise e, w).
Proof.
  intros Hc Ht Hin Ha.
  assert (Hm : link_of movie = Raise TypeError).
  { unfold link_of, subscript. rewrite Ha. reflexivity. }
  destruct (comprehension_raises link_of _ movie TypeError Hin Hm)
    as (x' & e' & _ & Hx' & Hraise).
  exists e'. split; [eapply link_of_raises; eassumption|].
  assert (L : movie_links soup = Raise e').
  { rewrite (movie_links_found soup column table Hc Ht). exact Hraise. }
  split; [exact L|].
  unfold extract_movies. rewrite L. reflexivity.
Qed.

Lemma item_without_link_aborts_witness :
  exists e,
    (e = TypeError \/ e = KeyError)
    /\ movie_links sample.chart_with_plain_item = Raise e
    /\ extract_movies sample.network sample.BeautifulSoup (one_by_one 2)
         sample.chart_with_plain_item sample.fresh
       = Some (Raise e, sample.fresh).
Proof.
  refine (item_without_link_aborts sample.network sample.BeautifulSoup
            (one_by_one 2) sample.chart_with_plain_item
            (Tag "div" [("data-testid", "chart-layout-main-column")]
               [Tag "ul" [] [sample.item [sample.anchor "/title/dune/" "Dune"];
                             sample.item [NavigableString "Heat"]]])
            (Tag "ul" [] [sample.item [sample.anchor "/title/dune/" "Dune"];
                          sample.item [NavigableString "Heat"]])
            (sample.item [NavigableString "Heat"]) sample.fresh _ _ _ _).
  - vm_compute. reflexivity.
  - vm_compute. reflexivity.
  - vm_compute. right. left. reflexivity.
  - vm_compute. reflexivity.
Defined.

(** ** Properties of the thread pool *)

Lemma remove_nth_length {A} (i : nat) (l : list A) (x : A) :
  nth_error l i = Some x -> S (length (remove_nth i l)) = length l.
Proof.
  revert l. induction i as [|i IH]; intros [|a l] H; try discriminate; cbn in *.
  - reflexivity.
  - f_equal. now apply IH.
Qed.

Lemma remove_nth_permutation {A} (i : nat) (l : list A) (x : A) :
  nth_error l i = Some x -> Permutation (x :: remove_nth i l) l.
Proof.
  revert l. induction i as [|i IH]; intros [|a l] H; try discriminate; cbn in *.
  - injection H as ->. reflexivity.
  - rewrite perm_swap. constructor. now apply IH.
Qed.

Section Pool.

Variable network : string -> list (string * string) -> option string.
Variable BeautifulSoup : string -> node.

(** A task adds to movies.csv the rows it would add to an empty file,
    whatever the file holds when it runs. *)
Lemma task_rows (link : string) (w : world) :
  movies_csv (snd (extract_movie_details network BeautifulSoup link w))
  = movies_csv w ++ rows_of network BeautifulSoup link.
Proof.
  unfold rows_of, extract_movie_details, bind, requests_get.
  destruct (network link headers) as [content|]; cbn;
    [|now rewrite app_nil_r].
  destruct (movie_details_of_outcome (BeautifulSoup content)) as [(r & Hr)|Hr];
    rewrite !Hr; cbn; [|now rewrite app_nil_r].
  rewrite !saved_csv. reflexivity.
Qed.

(** A task whose request fails in transport raises, having written
    nothing. *)
Lemma failed_request_raises (link : string) (w : world) :
  network link headers = None ->
  extract_movie_details network BeautifulSoup link w
  = (Raise RequestException,
     World (requests_log w ++ [link]) (movies_csv w) (stdout w)).
Proof.
  intros H. unfold extract_movie_details, bind, requests_get.
  rewrite H. reflexivity.
Qed.

Lemma pool_step_bound ev ex w ex' w' :
  pool_step network BeautifulSoup ev (ex, w) = Some (ex', w') ->
  within_bound ex ->
  within_bound ex' /\ max_workers ex' = max_workers ex.
Proof.
  unfold within_bound, pool_step. intros H [Ht Hr].
  destruct ev as [spawn| |i].
  - destruct (pending ex) as [|link rest]; [discriminate|].
    destruct spawn.
    + destruct (Nat.ltb_spec (threads ex) (max_workers ex)); [|discriminate].
      injection H as <- <-. cbn. lia.
    + destruct (_ || _); [|discriminate].
      injection H as <- <-. cbn. lia.
  - destruct (work_queue ex) as [|link queue]; [discriminate|].
    destruct (Nat.ltb_spec (length (running ex)) (threads ex)); [|discriminate].
    injection H as <- <-. cbn. rewrite length_app. cbn. lia.
  - destruct (nth_error (running ex) i) as [link|] eqn:Hi; [|discriminate].
    destruct (extract_movie_details _ _ link w) as [outcome w1].
    injection H as <- <-. cbn.
    apply remove_nth_length in Hi. lia.
Qed.

Lemma pool_step_held ev ex w ex' w' (before : list (list value)) :
  pool_step network BeautifulSoup ev (ex, w) = Some (ex', w') ->
  movies_csv w
  = before ++ flat_map (rows_of network BeautifulSoup) (map fst (futures ex)) ->
  Permutation (links_held ex') (links_held ex)
  /\ movies_csv w'
     = before ++ flat_map (rows_of network BeautifulSoup) (map fst (futures ex')).
Proof.
  unfold links_held, pool_step. intros H Hcsv.
  destruct ev as [spawn| |i].
  - destruct (pending ex) as [|link rest]; [discriminate|].
    assert (G : Permutation
                  (map fst (futures ex) ++ running ex
                   ++ (work_queue ex ++ [link]) ++ rest)
                  (map fst (futures ex) ++ running ex
                   ++ work_queue ex ++ link :: rest)).
    { rewrite <- app_assoc. reflexivity. }
    destruct spawn.
    + destruct (_ <? _)%nat; [|discriminate].
      injection H as <- <-. cbn. split; assumption.
    + destruct (_ || _); [|discriminate].
      injection H as <- <-. cbn. split; assumption.
  - destruct (work_queue ex) as [|link queue]; [discriminate|].
    destruct (_ <? _)%nat; [|discriminate].
    injection H as <- <-. cbn. split; [|assumption].
    apply Permutation_app_head.
    rewrite <- app_assoc. apply Permutation_app_head.
    cbn. reflexivity.
  - destruct (nth_error (running ex) i) as [link|] eqn:Hi; [|discriminate].
    pose proof (task_rows link w) as Hrows.
    destruct (extract_movie_details _ _ link w) as [outcome w1].
    injection H as <- <-. cbn in *. split.
    + rewrite map_app. cbn. rewrite <- app_assoc. cbn.
      apply Permutation_app_head.
      change (Permutation
                ((link :: remove_nth i (running ex))
                 ++ work_queue ex ++ pending ex)
                (running ex ++ work_queue ex ++ pending ex)).
      apply Permutation_app_tail. now apply remove_nth_permutation.
    + rewrite Hrows, Hcsv, map_app, flat_map_app. cbn.
      now rewrite app_nil_r, app_assoc.
Qed.

Lemma pool_run_bound schedule ex w ex' w' :
  pool_run network BeautifulSoup schedule (ex, w) = Some (ex', w') ->
  within_bound ex ->
  within_bound ex' /\ max_workers ex' = max_workers ex.
Proof.
  revert ex w. induction schedule as [|ev rest IH]; intros ex w H Hb.
  - injection H as <- <-. split; [assumption|reflexivity].
  - cbn [pool_run] in H.
    destruct (pool_step _ _ ev (ex, w)) as [[ex1 w1]|] eqn:Hstep; [|discriminate].
    destruct (pool_step_bound _ _ _ _ _ Hstep Hb) as [Hb1 Hm1].
    destruct (IH _ _ H Hb1) as [Hb' Hm']. split; [assumption|congruence].
Qed.

Lemma pool_run_held schedule ex w ex' w' (before : list (list value)) :
  pool_run network BeautifulSoup schedule (ex, w) = Some (ex', w') ->
  movies_csv w
  = before ++ flat_map (rows_of network BeautifulSoup) (map fst (futures ex)) ->
  Permutation (links_held ex') (links_held ex)
  /\ movies_csv w'
     = before ++ flat_map (rows_of network BeautifulSoup) (map fst (futures ex')).
Proof.
  revert ex w. induction schedule as [|ev rest IH]; intros ex w H Hcsv.
  - injection H as <- <-. split; [reflexivity|assumption].
  - cbn [pool_run] in H.
    destruct (pool_step _ _ ev (ex, w)) as [[ex1 w1]|] eqn:Hstep; [|discriminate].
    destruct (pool_step_held _ _ _ _ _ _ Hstep Hcsv) as [Hp1 Hc1].
    destruct (IH _ _ H Hc1) as [Hp' Hc']. split; [|assumption].
    etransitivity; eassumption.
Qed.

Lemma dispatch_start (links : list string) (ex : executor) :
  dispatch links = Return ex ->
  ex = Executor (Nat.min MAX_THREADS (length links)) links [] 0 [] []
  /\ links <> [].
Proof.
  unfold dispatch, ThreadPoolExecutor.
  destruct (Nat.eqb_spec (Nat.min MAX_THREADS (length links)) 0) as [E|E];
    [discriminate|].
  intros [= <-]. split; [reflexivity|].
  intros ->. apply E. reflexivity.
Qed.

Lemma dispatch_nonempty (links : list string) :
  links <> [] ->
  dispatch links
  = Return (Executor (Nat.min MAX_THREADS (length links)) links [] 0 [] []).
Proof.
  intros Hne. unfold dispatch, ThreadPoolExecutor.
  destruct (Nat.eqb_spec (Nat.min MAX_THREADS (length links)) 0) as [E|E];
    [|reflexivity].
  destruct links; [contradiction|]. unfold MAX_THREADS in E. cbn in E. lia.
Qed.

(** C4: the pool is built for min(MAX_THREADS, L) workers, where
    MAX_THREADS is 100 and L the number of links; at every point of
    every schedule it has started at most that many worker threads and
    at most that many tasks are running. *)
Theorem pool_runs_at_most_min_100_L (links : list string) (ex : executor)
    (schedule : list event) (w : world) (ex' : executor) (w' : world) :
  dispatch links = Return ex ->
  pool_run network BeautifulSoup schedule (ex, w) = Some (ex', w') ->
  MAX_THREADS = 100
  /\ max_workers ex' = Nat.min 100 (length links)
  /\ threads ex' <= Nat.min 100 (length links)
  /\ length (running ex') <= Nat.min 100 (length links).
Proof.
  intros Hd Hrun. apply dispatch_start in Hd. destruct Hd as [-> _].
  apply pool_run_bound in Hrun.
  - destruct Hrun as [[Ht Hr] Hm].
    cbn [max_workers] in Hm. unfold MAX_THREADS in Hm.
    split; [reflexivity|]. split; [assumption|]. lia.
  - unfold within_bound. cbn [threads running max_workers length]. lia.
Qed.

Lemma pool_run_app (first second : list event) (s : executor * world) :
  pool_run network BeautifulSoup (first ++ second) s
  = match pool_run network BeautifulSoup first s with
    | Some s' => pool_run network BeautifulSoup second s'
    | None => None
    end.
Proof.
  revert s. induction first as [|ev first IH]; intros s; cbn [app pool_run].
  - reflexivity.
  - destruct (pool_step network BeautifulSoup ev s); [apply IH|reflexivity].
Qed.

(** One task after the other on a single worker is a run of the pool:
    the pool always has a schedule that brings every task to its end. *)
Lemma one_round (m t : nat) (link : string) (rest : list string)
    (done : list (string * result details)) (w : world) :
  pool_run network BeautifulSoup [Submit false; Take; Finish 0]
    (Executor m (link :: rest) [] (S t) [] done, w)
  = Some (Executor m rest [] (S t) []
            (done ++ [(link, fst (extract_movie_details network BeautifulSoup link w))]),
          snd (extract_movie_details network BeautifulSoup link w)).
Proof.
  cbn. destruct (extract_movie_details network BeautifulSoup link w).
  reflexivity.
Qed.

Lemma later_rounds (m t : nat) (rest : list string) :
  forall (done : list (string * result details)) (w : world),
  exists done' w',
    pool_run network BeautifulSoup
      (concat (repeat [Submit false; Take; Finish 0] (length rest)))
      (Executor m rest [] (S t) [] done, w)
    = Some (Executor m [] [] (S t) [] done', w').
Proof.
  induction rest as [|link rest IH]; intros done w.
  - exists done, w. reflexivity.
  - destruct (IH (done ++ [(link, fst (extract_movie_details network BeautifulSoup link w))])
                (snd (extract_movie_details network BeautifulSoup link w)))
      as (done' & w' & H).
    exists done', w'.
    change (concat (repeat [Submit false; Take; Finish 0] (length (link :: rest))))
      with ([Submit false; Take; Finish 0]
            ++ concat (repeat [Submit false; Take; Finish 0] (length rest))).
    rewrite pool_run_app, one_round. exact H.
Qed.

Lemma one_by_one_completes (soup : node) (links : list string) (w : world) :
  movie_links soup = Return links ->
  links <> [] ->
  exists w',
    extract_movies network BeautifulSoup (one_by_one (length links)) soup w
    = Some (Return tt, w').
Proof.
  intros Hl Hne. unfold extract_movies.
  rewrite Hl, (dispatch_nonempty links Hne).
  destruct links as [|link rest]; [contradiction|].
  destruct (later_rounds (Nat.min MAX_THREADS (length (link :: rest))) 0 rest
              [(link, fst (extract_movie_details network BeautifulSoup link w))]
              (snd (extract_movie_details network BeautifulSoup link w)))
    as (done' & w' & H).
  exists w'.
  change (one_by_one (length (link :: rest)))
    with ([Submit true; Take; Finish 0]
          ++ concat (repeat [Submit false; Take; Finish 0] (length rest))).
  rewrite pool_run_app.
  assert (F : pool_run network BeautifulSoup [Submit true; Take; Finish 0]
                (Executor (Nat.min MAX_THREADS (length (link :: rest)))
                          (link :: rest) [] 0 [] [], w)
              = Some (Executor (Nat.min MAX_THREADS (length (link :: rest)))
                        rest [] 1 []
                        [(link, fst (extract_movie_details network BeautifulSoup link w))],
                      snd (extract_movie_details network BeautifulSoup link w))).
  { cbn [pool_run pool_step pending threads max_workers work_queue running
         futures length app nth_error remove_nth firstn skipn].
    replace (0 <? Nat.min MAX_THREADS (S (length rest)))%nat with true
      by (symmetry; apply Nat.ltb_lt; unfold MAX_THREADS; lia).
    cbn. destruct (extract_movie_details network BeautifulSoup link w).
    reflexivity. }
  rewrite F, H. reflexivity.
Qed.

(** C3, as amended: a task whose request fails in transport raises
    [RequestException] before any record is read and writes no row;
    the pool keeps the exception in the task's future, which nothing
    reads.  So under every schedule that runs the pool to its end
    [extract_movies] returns normally, and movies.csv has gained
    exactly the rows of the tasks, each task once, in the order the
    tasks ended: the failed task adds none and takes none away from
    the others. *)
Theorem transport_failure_stays_in_its_task (schedule : list event)
    (soup : node) (links : list string) (link : string) (w : world)
    (out : result unit * world) :
  movie_links soup = Return links ->
  In link links ->
  network link headers = None ->
  extract_movies network BeautifulSoup schedule soup w = Some out ->
  (forall w0,
     extract_movie_details network BeautifulSoup link w0
     = (Raise RequestException,
        World (requests_log w0 ++ [link]) (movies_csv w0) (stdout w0)))
  /\ rows_of network BeautifulSoup link = []
  /\ exists w' order,
       out = (Return tt, w')
       /\ Permutation order links
       /\ movies_csv w'
          = movies_csv w ++ flat_map (rows_of network BeautifulSoup) order.
Proof.
  intros Hl Hin Hnet Hrun.
  split; [intros w0; now apply failed_request_raises|].
  split.
  { unfold rows_of. rewrite failed_request_raises by exact Hnet. reflexivity. }
  unfold extract_movies in Hrun. rewrite Hl in Hrun.
  assert (Hne : links <> []) by (intros ->; contradiction).
  rewrite (dispatch_nonempty links Hne) in Hrun.
  destruct (pool_run _ _ schedule _) as [[ex' w']|] eqn:Hpool; [|discriminate].
  destruct (all_done ex') eqn:Hdone; [|discriminate].
  injection Hrun as <-.
  exists w', (map fst (futures ex')).
  split; [reflexivity|].
  destruct (pool_run_held schedule _ _ _ _ (movies_csv w) Hpool) as [Hperm Hcsv].
  { cbn. now rewrite app_nil_r. }
  split; [|exact Hcsv].
  unfold all_done in Hdone. unfold links_held in Hperm. cbn in Hperm.
  destruct (pending ex'); [|discriminate].
  destruct (work_queue ex'); [|discriminate].
  destruct (running ex'); [|discriminate].
  now rewrite !app_nil_r in Hperm.
Qed.

End Pool.

Lemma pool_runs_at_most_min_100_L_witness :
  MAX_THREADS = 100
  /\ max_workers (Executor 3 ["https://imdb.com/title/gone/"] [] 2
                    ["https://imdb.com/title/dune/"; "https://imdb.com/title/heat/"] [])
     = Nat.min 100 3
  /\ 2 <= Nat.min 100 3
  /\ 2 <= Nat.min 100 3.
Proof.
  refine (pool_runs_at_most_min_100_L sample.network sample.BeautifulSoup
            ["https://imdb.com/title/dune/"; "https://imdb.com/title/heat/";
             "https://imdb.com/title/gone/"]
            (Executor 3 ["https://imdb.com/title/dune/"; "https://imdb.com/title/heat/";
                         "https://imdb.com/title/gone/"] [] 0 [] [])
            [Submit true; Submit true; Take; Take]
            sample.fresh
            (Executor 3 ["https://imdb.com/title/gone/"] [] 2
               ["https://imdb.com/title/dune/"; "https://imdb.com/title/heat/"] [])
            sample.fresh _ _);
    vm_compute; reflexivity.
Defined.

Lemma transport_failure_stays_in_its_task_witness :
  (forall w0,
     extract_movie_details sample.network sample.BeautifulSoup
       "https://imdb.com/title/gone/" w0
     = (Raise RequestException,
        World (requests_log w0 ++ ["https://imdb.com/title/gone/"])
              (movies_csv w0) (stdout w0)))
  /\ rows_of sample.network sample.BeautifulSoup "https://imdb.com/title/gone/" = []
  /\ exists w' order,
       (Return tt,
        World ["https://imdb.com/title/gone/"; "https://imdb.com/title/dune/";
               "https://imdb.com/title/heat/"]
              [[Some "Dune"; Some "2021"; Some "8.0"; Some "Sand and spice."]]
              [[Some "Dune"; Some "2021"; Some "8.0"; Some "Sand and spice."]])
       = (Return tt, w')
       /\ Permutation order
            ["https://imdb.com/title/dune/"; "https://imdb.com/title/heat/";
             "https://imdb.com/title/gone/"]
       /\ movies_csv w'
          = movies_csv sample.fresh
            ++ flat_map (rows_of sample.network sample.BeautifulSoup) order.
Proof.
  refine (transport_failure_stays_in_its_task sample.network sample.BeautifulSoup
            [Submit true; Submit true; Take; Submit true; Take; Take;
             Finish 2; Finish 0; Finish 0]
            sample.chart
            ["https://imdb.com/title/dune/"; "https://imdb.com/title/heat/";
             "https://imdb.com/title/gone/"]
            "https://imdb.com/title/gone/" sample.fresh _ _ _ _ _).
  - vm_compute. reflexivity.
  - right. right. left. reflexivity.
  - vm_compute. reflexivity.
  - vm_compute. reflexivity.
Defined.

(** C3 as stated fails: the task for the address that cannot be reached
    does not return an all-null record; it raises. *)
Lemma failed_fetch_raises_out_of_the_task :
  extract_movie_details sample.network sample.BeautifulSoup
    "https://imdb.com/title/gone/" sample.fresh
  = (Raise RequestException, World ["https://imdb.com/title/gone/"] [] [])
  /\ forall w',
       extract_movie_details sample.network sample.BeautifulSoup
         "https://imdb.com/title/gone/" sample.fresh
       <> (Return all_null, w').
Proof.
  split; [vm_compute; reflexivity|].
  intros w' H. vm_compute in H. discriminate.
Qed.

(** ** Further properties: what one task does to the world *)

Lemma complete_full_row (r : details) : complete r -> full_row (row_of r).
Proof.
  intros ((t & Ht & Hnt) & (d & Hd & Hnd) & (ra & Hra & Hnra) & (p & Hp & Hnp)).
  exists t, d, ra, p. unfold row_of. rewrite Ht, Hd, Hra, Hp.
  repeat split; assumption.
Qed.

Section Task.

Variable network : string -> list (string * string) -> option string.
Variable BeautifulSoup : string -> node.

(** The rows of a task: none, or the one row of a complete record. *)
Lemma rows_of_cases (link : string) :
  rows_of network BeautifulSoup link = []
  \/ exists r, complete r /\ rows_of network BeautifulSoup link = [row_of r].
Proof.
  unfold rows_of, extract_movie_details, bind, requests_get.
  destruct (network link headers) as [content|]; [|left; reflexivity].
  destruct (movie_details_of_outcome (BeautifulSoup content)) as [(r & Hr)|Hr];
    rewrite Hr; [|left; reflexivity].
  cbn [snd]. rewrite saved_csv. cbn [movies_csv app].
  destruct (forallb pystr.truthy_opt (row_of r)) eqn:Hall; [|left; reflexivity].
  right. exists r. split; [now apply all_truthy_complete|reflexivity].
Qed.

(** The world a task leaves: its request is logged and its rows are
    printed and appended, whatever the world held before. *)
Lemma task_effect (link : string) (w : world) :
  snd (extract_movie_details network BeautifulSoup link w)
  = World (requests_log w ++ [link])
          (movies_csv w ++ rows_of network BeautifulSoup link)
          (stdout w ++ rows_of network BeautifulSoup link).
Proof.
  unfold rows_of, extract_movie_details, bind, requests_get.
  destruct (network link headers) as [content|]; cbn;
    [|now rewrite !app_nil_r].
  destruct (movie_details_of_outcome (BeautifulSoup content)) as [(r & Hr)|Hr];
    rewrite !Hr; cbn; [|now rewrite !app_nil_r].
  unfold saved. destruct (forallb pystr.truthy_opt (row_of r)); cbn.
  - reflexivity.
  - now rewrite !app_nil_r.
Qed.

(** X1: a task sends exactly one request, to its own link; it appends at
    most one row to movies.csv, prints exactly the rows it appends, and
    changes nothing that was already in the log, the file or the
    output. *)
Theorem task_requests_once_and_appends_at_most_one_row (link : string) (w : world) :
  exists rows,
    length rows <= 1
    /\ requests_log (snd (extract_movie_details network BeautifulSoup link w))
       = requests_log w ++ [link]
    /\ movies_csv (snd (extract_movie_details network BeautifulSoup link w))
       = movies_csv w ++ rows
    /\ stdout (snd (extract_movie_details network BeautifulSoup link w))
       = stdout w ++ rows.
Proof.
  exists (rows_of network BeautifulSoup link).
  rewrite task_effect. cbn [requests_log movies_csv stdout].
  split; [|repeat split].
  destruct (rows_of_cases link) as [H|(r & _ & H)]; rewrite H; cbn; lia.
Qed.

End Task.

(** ** Further properties: whole runs of the pool *)

Section Runs.

Variable network : string -> list (string * string) -> option string.
Variable BeautifulSoup : string -> node.

Lemma pool_step_ledger ev ex w ex' w' (log0 : list string) (out0 : list (list value)) :
  pool_step network BeautifulSoup ev (ex, w) = Some (ex', w') ->
  requests_log w = log0 ++ map fst (futures ex)
  /\ stdout w
     = out0 ++ flat_map (rows_of network BeautifulSoup) (map fst (futures ex)) ->
  requests_log w' = log0 ++ map fst (futures ex')
  /\ stdout w'
     = out0 ++ flat_map (rows_of network BeautifulSoup) (map fst (futures ex')).
Proof.
  unfold pool_step. intros H [Hlog Hout].
  destruct ev as [spawn| |i].
  - destruct (pending ex) as [|link rest]; [discriminate|].
    destruct spawn.
    + destruct (_ <? _)%nat; [|discriminate].
      injection H as <- <-. cbn. split; assumption.
    + destruct (_ || _); [|discriminate].
      injection H as <- <-. cbn. split; assumption.
  - destruct (work_queue ex) as [|link queue]; [discriminate|].
    destruct (_ <? _)%nat; [|discriminate].
    injection H as <- <-. cbn. split; assumption.
  - destruct (nth_error (running ex) i) as [link|]; [|discriminate].
    pose proof (task_effect network BeautifulSoup link w) as Heff.
    destruct (extract_movie_details _ _ link w) as [outcome w1].
    injection H as <- <-. cbn [snd futures] in *. subst w1.
    cbn [requests_log stdout].
    rewrite Hlog, Hout, map_app, flat_map_app. cbn.
    rewrite app_nil_r, <- !app_assoc. split; reflexivity.
Qed.

Lemma pool_run_ledger schedule ex w ex' w' (log0 : list string)
    (out0 : list (list value)) :
  pool_run network BeautifulSoup schedule (ex, w) = Some (ex', w') ->
  requests_log w = log0 ++ map fst (futures ex)
  /\ stdout w
     = out0 ++ flat_map (rows_of network BeautifulSoup) (map fst (futures ex)) ->
  requests_log w' = log0 ++ map fst (futures ex')
  /\ stdout w'
     = out0 ++ flat_map (rows_of network BeautifulSoup) (map fst (futures ex')).
Proof.
  revert ex w. induction schedule as [|ev rest IH]; intros ex w H Hinv.
  - injection H as <- <-. assumption.
  - cbn [pool_run] in H.
    destruct (pool_step _ _ ev (ex, w)) as [[ex1 w1]|] eqn:Hstep; [|discriminate].
    eapply IH; [eassumption|].
    eapply pool_step_ledger; eassumption.
Qed.

(** Every event uses up one of the events the pool has left. *)
Lemma pool_step_events_left ev ex w ex' w' :
  pool_step network BeautifulSoup ev (ex, w) = Some (ex', w') ->
  S (events_left ex') = events_left ex.
Proof.
  unfold pool_step, events_left. intros H.
  destruct ev as [spawn| |i].
  - destruct (pending ex) as [|link rest]; [discriminate|].
    destruct spawn.
    + destruct (_ <? _)%nat; [|discriminate].
      injection H as <- <-. cbn [pending work_queue running length].
      rewrite length_app. cbn [length]. lia.
    + destruct (_ || _); [|discriminate].
      injection H as <- <-. cbn [pending work_queue running length].
      rewrite length_app. cbn [length]. lia.
  - destruct (work_queue ex) as [|link queue]; [discriminate|].
    destruct (_ <? _)%nat; [|discriminate].
    injection H as <- <-. cbn [pending work_queue running length].
    rewrite length_app. cbn [length]. lia.
  - destruct (nth_error (running ex) i) as [link|] eqn:Hi; [|discriminate].
    destruct (extract_movie_details _ _ link w) as [outcome w1].
    injection H as <- <-. cbn [pending work_queue running].
    apply remove_nth_length in Hi. lia.
Qed.

Lemma pool_run_events_left schedule ex w ex' w' :
  pool_run network BeautifulSoup schedule (ex, w) = Some (ex', w') ->
  length schedule + events_left ex' = events_left ex.
Proof.
  revert ex w. induction schedule as [|ev rest IH]; intros ex w H.
  - injection H as <- <-. reflexivity.
  - cbn [pool_run] in H.
    destruct (pool_step _ _ ev (ex, w)) as [[ex1 w1]|] eqn:Hstep; [|discriminate].
    apply pool_step_events_left in Hstep. apply IH in H. cbn [length]. lia.
Qed.

Lemma all_done_nothing_left (ex : executor) :
  all_done ex = true ->
  pending ex = [] /\ work_queue ex = [] /\ running ex = [].
Proof.
  unfold all_done.
  destruct (pending ex); [|discriminate].
  destruct (work_queue ex); [|discriminate].
  destruct (running ex); [|discriminate].
  repeat split.
Qed.

(** What a run of [extract_movies] that returns has done. *)
Lemma returned_run_effect schedule (soup : node) (w w' : world) :
  extract_movies network BeautifulSoup schedule soup w = Some (Return tt, w') ->
  exists links order,
    movie_links soup = Return links
    /\ links <> []
    /\ Permutation order links
    /\ length schedule = 3 * length links
    /\ w' = World (requests_log w ++ order)
                  (movies_csv w ++ flat_map (rows_of network BeautifulSoup) order)
                  (stdout w ++ flat_map (rows_of network BeautifulSoup) order).
Proof.
  unfold extract_movies. intros H.
  destruct (movie_links soup) as [links|e]; [|discriminate].
  destruct (dispatch links) as [ex|e] eqn:Hd; [|discriminate].
  apply dispatch_start in Hd. destruct Hd as [-> Hne].
  destruct (pool_run _ _ schedule _) as [[ex' w1]|] eqn:Hpool; [|discriminate].
  destruct (all_done ex') eqn:Hdone; [|discriminate].
  injection H as <-.
  apply all_done_nothing_left in Hdone. destruct Hdone as (Hp & Hq & Hr).
  exists links, (map fst (futures ex')).
  destruct (pool_run_held network BeautifulSoup schedule _ _ _ _ (movies_csv w) Hpool)
    as [Hperm Hcsv]; [cbn; now rewrite app_nil_r|].
  destruct (pool_run_ledger schedule _ _ _ _ (requests_log w) (stdout w) Hpool)
    as [Hlog Hout]; [cbn; now rewrite !app_nil_r|].
  pose proof (pool_run_events_left schedule _ _ _ _ Hpool) as Hlen.
  unfold links_held in Hperm. unfold events_left in Hlen.
  rewrite Hp, Hq, Hr in Hperm, Hlen. cbn in Hperm, Hlen.
  rewrite !app_nil_r in Hperm.
  split; [reflexivity|]. split; [assumption|]. split; [assumption|].
  split; [lia|].
  destruct w1 as [log1 csv1 out1]. cbn in Hcsv, Hlog, Hout. congruence.
Qed.

(** Where an exception of [extract_movies] comes from. *)
Lemma raised_run_cause schedule (soup : node) (w w' : world) (e : exn) :
  extract_movies network BeautifulSoup schedule soup w = Some (Raise e, w') ->
  w' = w
  /\ (movie_links soup = Raise e
      \/ (movie_links soup = Return [] /\ e = ValueError)).
Proof.
  unfold extract_movies. intros H.
  destruct (movie_links soup) as [links|e0].
  - destruct links as [|link rest].
    + cbn in H. injection H as <- <-. split; [reflexivity|]. right. now split.
    + rewrite dispatch_nonempty in H by discriminate.
      destruct (pool_run _ _ schedule _) as [[ex' w1]|]; [|discriminate].
      destruct (all_done ex'); discriminate.
  - injection H as <- <-. split; [reflexivity|]. now left.
Qed.

Lemma rows_of_full (link : string) :
  Forall full_row (rows_of network BeautifulSoup link).
Proof.
  destruct (rows_of_cases network BeautifulSoup link) as [H|(r & Hc & H)];
    rewrite H; constructor; [|constructor].
  now apply complete_full_row.
Qed.

(** X2: a run never puts an incomplete row into movies.csv.  If every
    row of the file has four non-empty fields before [extract_movies]
    runs, every row has them afterwards, whatever the schedule and
    whether the run returns or raises. *)
Theorem sink_rows_stay_full schedule (soup : node) (w : world)
    (out : result unit * world) :
  Forall full_row (movies_csv w) ->
  extract_movies network BeautifulSoup schedule soup w = Some out ->
  Forall full_row (movies_csv (snd out)).
Proof.
  intros Hfull Hrun. destruct out as [[[]|e] w'].
  - apply returned_run_effect in Hrun.
    destruct Hrun as (links & order & _ & _ & _ & _ & ->).
    cbn [snd movies_csv]. apply Forall_app. split; [assumption|].
    apply Forall_flat_map. apply Forall_forall. intros link _.
    apply rows_of_full.
  - apply raised_run_cause in Hrun. destruct Hrun as [-> _]. assumption.
Qed.

(** X3: [extract_movies] raises only before it starts a task.  When it
    ends with an exception the world is as it was, and the exception is
    the one of the link collection, or the [ValueError] of a pool for an
    empty list of links; what a task raises never comes out. *)
Theorem extract_movies_raises_only_before_dispatch schedule (soup : node)
    (w w' : world) (e : exn) :
  extract_movies network BeautifulSoup schedule soup w = Some (Raise e, w') ->
  w' = w
  /\ ((movie_links soup = Raise e /\ (e = AttributeError \/ e = TypeError \/ e = KeyError))
      \/ (movie_links soup = Return [] /\ e = ValueError)).
Proof.
  intros H. apply raised_run_cause in H. destruct H as [-> [H|H]].
  - split; [reflexivity|]. left. split; [assumption|].
    revert H. unfold movie_links.
    destruct (find "div" _ soup) as [column|]; cbn; [|intros [= <-]; now left].
    destruct (find "ul" [] column) as [table|]; cbn; [|intros [= <-]; now left].
    change (comprehension link_of (find_all "li" [] table) = Raise e
            -> e = AttributeError \/ e = TypeError \/ e = KeyError).
    induction (find_all "li" [] table) as [|movie rows IH]; cbn; [discriminate|].
    destruct (link_of movie) as [y|e1] eqn:Hm.
    + destruct (comprehension link_of rows); [discriminate|].
      intros [= <-]. now apply IH.
    + intros [= <-]. right. eapply link_of_raises. exact Hm.
  - split; [reflexivity|]. now right.
Qed.

(** X4: a run that returns has sent exactly one request per link: the
    request log has grown by the links of the chart page, each as often
    as it is in the list, in some order. *)
Theorem every_link_requested_once schedule (soup : node) (links : list string)
    (w w' : world) :
  movie_links soup = Return links ->
  extract_movies network BeautifulSoup schedule soup w = Some (Return tt, w') ->
  exists order,
    Permutation order links
    /\ requests_log w' = requests_log w ++ order.
Proof.
  intros Hl Hrun. apply returned_run_effect in Hrun.
  destruct Hrun as (links' & order & Hl' & _ & Hperm & _ & ->).
  rewrite Hl in Hl'. injection Hl' as <-.
  exists order. split; [assumption|reflexivity].
Qed.

(** X5: what a run adds to movies.csv does not depend on the schedule,
    only the order of the rows does: two runs of [extract_movies] on
    the same page from the same world leave files that are
    permutations of each other. *)
Theorem sink_content_is_schedule_independent (schedule1 schedule2 : list event)
    (soup : node) (w w1 w2 : world) :
  extract_movies network BeautifulSoup schedule1 soup w = Some (Return tt, w1) ->
  extract_movies network BeautifulSoup schedule2 soup w = Some (Return tt, w2) ->
  Permutation (movies_csv w1) (movies_csv w2).
Proof.
  intros H1 H2.
  apply returned_run_effect in H1, H2.
  destruct H1 as (links1 & order1 & Hl1 & _ & Hp1 & _ & ->).
  destruct H2 as (links2 & order2 & Hl2 & _ & Hp2 & _ & ->).
  rewrite Hl1 in Hl2. injection Hl2 as <-.
  cbn [movies_csv]. apply Permutation_app_head.
  apply Permutation_flat_map.
  rewrite Hp1. symmetry. assumption.
Qed.

(** X6: every run of the pool is finite and brings each task to its end
    once.  After any schedule the pool has accepted, the events gone
    through and the events still due add up to three per link (submit,
    take, finish); so no schedule is longer than three times the number
    of links, and one that empties the pool has exactly that length. *)
Theorem pool_goes_through_three_events_per_link (links : list string)
    (ex : executor) (schedule : list event) (w : world) (ex' : executor)
    (w' : world) :
  dispatch links = Return ex ->
  pool_run network BeautifulSoup schedule (ex, w) = Some (ex', w') ->
  length schedule + events_left ex' = 3 * length links
  /\ (all_done ex' = true <-> length schedule = 3 * length links).
Proof.
  intros Hd Hrun. apply dispatch_start in Hd. destruct Hd as [-> _].
  apply pool_run_events_left in Hrun.
  unfold events_left in *. cbn [pending work_queue running length] in Hrun.
  split; [lia|]. split.
  - intros Hdone. apply all_done_nothing_left in Hdone.
    destruct Hdone as (Hp & Hq & Hr). rewrite Hp, Hq, Hr in Hrun.
    cbn [length] in Hrun. lia.
  - intros Hlen. unfold all_done.
    destruct (pending ex'); [|cbn [length] in Hrun; lia].
    destruct (work_queue ex'); [|cbn [length] in Hrun; lia].
    destruct (running ex'); [reflexivity|cbn [length] in Hrun; lia].
Qed.




End Runs.

(** ** Further properties: [main] *)

Section Main.

Variable network : string -> list (string * string) -> option string.
Variable BeautifulSoup : string -> node.



End Main.

(** ** Further properties: the fields of the record *)





Lemma prefix_append (a b : string) :
  String.prefix a b = true <-> exists post, b = (a ++ post)%string.
Proof.
  revert b. induction a as [|x a IH]; intros b.
  - split; [|destruct b; reflexivity]. intros _. exists b. reflexivity.
  - destruct b as [|y b]; cbn [String.prefix].
    + split; [discriminate|]. intros (post & [=]).
    + destruct (ascii_dec x y) as [->|Hne].
      * rewrite IH. split; intros (post & H); exists post.
        -- cbn. now rewrite H.
        -- now injection H.
      * split; [discriminate|]. intros (post & H). injection H as <- _.
        contradiction.
Qed.

(** [needle in hay] holds exactly when [hay] has [needle] inside it. *)
Lemma contains_inside (needle hay : string) :
  pystr.contains needle hay = true
  <-> exists pre post, hay = (pre ++ needle ++ post)%string.
Proof.
  induction hay as [|c hay IH].
  - cbn [pystr.contains]. rewrite orb_false_r, prefix_append. split.
    + intros (post & H). exists "", post. exact H.
    + intros ([|x pre] & post & H); [|discriminate].
      exists post. exact H.
  - cbn [pystr.contains]. rewrite orb_true_iff, prefix_append, IH. split.
    + intros [(post & H)|(pre & post & H)].
      * exists "", post. exact H.
      * exists (String c pre), post. cbn. now rewrite H.
    + intros ([|x pre] & post & H).
      * left. exists post. exact H.
      * right. injection H as _ H. exists pre, post. exact H.
Qed.

(** The record of an extraction that returns: all null when the section
    or its second div is missing, and read from the page otherwise. *)
Lemma returned_record_shape (soup : node) (w w' : world) (r : details) :
  movie_details_of soup w = (Return r, w') ->
  r = all_null
  \/ exists page_section d0 target_div divs,
       find "section" [("class", Exactly "ipc-page-section")] soup = Some page_section
       /\ find_all_children "div" page_section = d0 :: target_div :: divs
       /\ title r
          = match find "h1" [] target_div with
            | Some title_tag => option_map get_text (find "span" [] title_tag)
            | None => None
            end
       /\ date r
          = option_map (fun date_tag => pystr.strip (get_text date_tag))
              (find "a" [("href", Satisfies releaseinfo)] target_div)
       /\ rating r
          = option_map get_text
              (find "div" [("data-testid",
                            Exactly "hero-rating-bar__aggregate-rating__score")] soup)
       /\ plot_text r
          = option_map (fun plot_tag => pystr.strip (get_text plot_tag))
              (find "span" [("data-testid", Exactly "plot-xs_to_m")] soup).
Proof.
  unfold movie_details_of.
  destruct (find "section" _ soup) as [page_section|] eqn:Hsec;
    [|intros [= <- _]; now left].
  destruct (find_all_children "div" page_section) as [|d0 [|target_div divs]]
    eqn:Hdivs; try (intros [= <- _]; now left).
  intros H. right. exists page_section, d0, target_div, divs.
  split; [reflexivity|]. split; [exact Hdivs|].
  destruct (find "h1" [] target_div) as [title_tag|].
  - destruct (find "span" [] title_tag) as [span|]; [|discriminate].
    unfold bind, lift, ret, attribute_of in H. rewrite save_row_saved in H.
    injection H as <- _. cbn [title date rating plot_text option_map].
    repeat split;
      match goal with |- context [find ?n ?a ?t] => destruct (find n a t) end;
      reflexivity.
  - unfold bind, lift, ret in H. rewrite save_row_saved in H.
    injection H as <- _. cbn [title date rating plot_text option_map].
    repeat split;
      match goal with |- context [find ?n ?a ?t] => destruct (find n a t) end;
      reflexivity.
Qed.


(** X11: a release date is read only from a link to release
    information.  When the record has a date, the second div of the
    section has below it an [a] element whose href is non-empty and has
    releaseinfo inside it, and the date is that element's text,
    stripped. *)
Theorem date_comes_from_a_releaseinfo_link (soup : node) (w w' : world)
    (r : details) (d : string) :
  movie_details_of soup w = (Return r, w') ->
  date r = Some d ->
  exists page_section d0 target_div divs date_tag href pre post,
    find "section" [("class", Exactly "ipc-page-section")] soup = Some page_section
    /\ find_all_children "div" page_section = d0 :: target_div :: divs
    /\ In date_tag (descendants target_div)
    /\ name_of date_tag = Some "a"
    /\ get date_tag "href" = Some href
    /\ href = (pre ++ "releaseinfo" ++ post)%string
    /\ d = pystr.strip (get_text date_tag).
Proof.
  intros H Hd. apply returned_record_shape in H.
  destruct H as [->|(page_section & d0 & target_div & divs & Hsec & Hdivs & _ & Hdate & _)];
    [discriminate|].
  rewrite Hdate in Hd.
  destruct (find "a" _ target_div) as [date_tag|] eqn:Hfind; [|discriminate].
  injection Hd as <-.
  unfold find in Hfind. apply find_some in Hfind. destruct Hfind as [Hin Hmatch].
  destruct date_tag as [nm attrs cs| |]; try discriminate.
  cbn in Hmatch. rewrite !andb_true_iff in Hmatch.
  destruct Hmatch as [Hname [Hhref _]].
  apply String.eqb_eq in Hname. subst nm.
  unfold matches_attr in Hhref.
  destruct (lookup "href" attrs) as [href|] eqn:Hlook; [|discriminate].
  cbn in Hhref. rewrite andb_true_iff in Hhref. destruct Hhref as [_ Hc].
  apply contains_inside in Hc. destruct Hc as (pre & post & Hc).
  exists page_section, d0, (target_div), divs, (Tag "a" attrs cs), href, pre, post.
  repeat split; assumption.
Qed.

(** X12: the extraction raises in exactly one situation: the section is
    there, it has a second div, that div has an h1 below it, and the h1
    has no span below it.  In every other case it returns. *)
Theorem extraction_raises_exactly_at_a_heading_without_span (soup : node) (w : world) :
  (exists e w', movie_details_of soup w = (Raise e, w'))
  <-> exists page_section d0 target_div divs title_tag,
        find "section" [("class", Exactly "ipc-page-section")] soup = Some page_section
        /\ find_all_children "div" page_section = d0 :: target_div :: divs
        /\ find "h1" [] target_div = Some title_tag
        /\ find "span" [] title_tag = None.
Proof.
  split.
  - intros (e & w' & H).
    apply movie_details_of_raises_only_at_span in H.
    destruct H as (_ & _ & H). exact H.
  - intros (page_section & d0 & target_div & divs & title_tag & Hs & Hd & Hh & Hsp).
    exists AttributeError, w. unfold movie_details_of.
    rewrite Hs, Hd, Hh, Hsp. reflexivity.
Qed.

(** X13: the links [movie_links] returns are read off the list items.
    When it returns, the marked div and its ul are on the page, every li
    below the ul has a first link with an href, and the links are those
    hrefs after https://imdb.com, one per li in document order. *)
Theorem returned_links_come_from_the_items (soup : node) (links : list string) :
  movie_links soup = Return links ->
  exists column table targets,
    find "div" [("data-testid", Exactly "chart-layout-main-column")] soup = Some column
    /\ find "ul" [] column = Some table
    /\ Forall2 (fun movie t => first_link_target movie = Some t)
               (find_all "li" [] table) targets
    /\ links = map (String.append "https://imdb.com") targets.
Proof.
  intros H.
  destruct (find "div" [("data-testid", Exactly "chart-layout-main-column")] soup)
    as [column|] eqn:Hc; [|unfold movie_links in H; rewrite Hc in H; discriminate].
  destruct (find "ul" [] column) as [table|] eqn:Ht;
    [|unfold movie_links in H; rewrite Hc in H; cbn in H; rewrite Ht in H;
      discriminate].
  rewrite (movie_links_found soup column table Hc Ht) in H.
  apply comprehension_returns in H.
  assert (G : exists targets,
             Forall2 (fun movie t => first_link_target movie = Some t)
                     (find_all "li" [] table) targets
             /\ links = map (String.append "https://imdb.com") targets).
  { induction H as [|movie link rows links Hm Hrest IH].
    - exists []. split; [constructor|reflexivity].
    - destruct IH as (targets & Hall & ->).
      assert (Hl : exists t, link = ("https://imdb.com" ++ t)%string).
      { revert Hm. unfold link_of.
        destruct (subscript (find "a" [] movie) "href") as [href|]; [|discriminate].
        intros [= <-]. now exists href. }
      destruct Hl as (t & ->).
      exists (t :: targets). split; [|reflexivity].
      constructor; [|assumption]. now apply link_of_target. }
  destruct G as (targets & Hall & Hlinks).
  exists column, table, targets. repeat split; assumption.
Qed.

(** ** Further properties: the tasks run one after the other *)

Section Sequential.

Variable network : string -> list (string * string) -> option string.
Variable BeautifulSoup : string -> node.




End Sequential.

(** ** Instances on the sample site *)

Lemma sink_rows_stay_full_witness :
  Forall full_row (movies_csv (snd (Return tt, sample_run.after))).
Proof.
  refine (sink_rows_stay_full sample.network sample.BeautifulSoup (one_by_one 3)
            sample.chart sample.fresh (Return tt, sample_run.after) _ _).
  - constructor.
  - vm_compute. reflexivity.
Defined.

Lemma extract_movies_raises_only_before_dispatch_witness :
  sample.fresh = sample.fresh
  /\ ((movie_links sample.empty_chart = Raise ValueError
       /\ (ValueError = AttributeError \/ ValueError = TypeError
           \/ ValueError = KeyError))
      \/ (movie_links sample.empty_chart = Return [] /\ ValueError = ValueError)).
Proof.
  refine (extract_movies_raises_only_before_dispatch sample.network
            sample.BeautifulSoup [] sample.empty_chart sample.fresh sample.fresh
            ValueError _).
  vm_compute. reflexivity.
Defined.

Lemma every_link_requested_once_witness :
  exists order,
    Permutation order sample_run.links
    /\ requests_log sample_run.after = requests_log sample.fresh ++ order.
Proof.
  refine (every_link_requested_once sample.network sample.BeautifulSoup
            (one_by_one 3) sample.chart sample_run.links sample.fresh
            sample_run.after _ _);
    vm_compute; reflexivity.
Defined.

Lemma sink_content_is_schedule_independent_witness :
  Permutation (movies_csv sample_run.after)
    (movies_csv (World ["https://imdb.com/title/gone/"; "https://imdb.com/title/dune/";
                        "https://imdb.com/title/heat/"]
                       [sample_run.dune_row] [sample_run.dune_row])).
Proof.
  refine (sink_content_is_schedule_independent sample.network sample.BeautifulSoup
            (one_by_one 3) sample_run.side_by_side sample.chart sample.fresh
            sample_run.after _ _ _);
    vm_compute; reflexivity.
Defined.

Lemma pool_goes_through_three_events_per_link_witness :
  4 + events_left sample_run.two_running = 3 * length sample_run.links
  /\ (all_done sample_run.two_running = true <-> 4 = 3 * length sample_run.links).
Proof.
  refine (pool_goes_through_three_events_per_link sample.network
            sample.BeautifulSoup sample_run.links sample_run.start
            [Submit true; Submit true; Take; Take] sample.fresh
            sample_run.two_running sample.fresh _ _);
    vm_compute; reflexivity.
Defined.





Lemma date_comes_from_a_releaseinfo_link_witness :
  exists page_section d0 target_div divs date_tag href pre post,
    find "section" [("class", Exactly "ipc-page-section")] sample.dune
    = Some page_section
    /\ find_all_children "div" page_section = d0 :: target_div :: divs
    /\ In date_tag (descendants target_div)
    /\ name_of date_tag = Some "a"
    /\ get date_tag "href" = Some href
    /\ href = (pre ++ "releaseinfo" ++ post)%string
    /\ "2021" = pystr.strip (get_text date_tag).
Proof.
  refine (date_comes_from_a_releaseinfo_link sample.dune sample.fresh
            (World [] [sample_run.dune_row] [sample_run.dune_row])
            (Details (Some "Dune") (Some "2021") (Some "8.0")
                     (Some "Sand and spice.")) "2021" _ _).
  - vm_compute. reflexivity.
  - reflexivity.
Defined.

Lemma returned_links_come_from_the_items_witness :
  exists column table targets,
    find "div" [("data-testid", Exactly "chart-layout-main-column")] sample.chart
    = Some column
    /\ find "ul" [] column = Some table
    /\ Forall2 (fun movie t => first_link_target movie = Some t)
               (find_all "li" [] table) targets
    /\ sample_run.links = map (String.append "https://imdb.com") targets.
Proof.
  refine (returned_links_come_from_the_items sample.chart sample_run.links _).
  vm_compute. reflexivity.
Defined.

